(** * CRISH API: case reports and weather forecasts (main.py)

    A shallow embedding of the request handlers of [main.py] and the
    properties of its filtering, paging, outer join and heat index.

    Modelling choices, all read off the source:
    - a table is the list of its rows in the store's natural order (no
      handler uses ORDER BY);
    - a nullable column is an [option]; primary-key columns are not nullable;
    - a SQLAlchemy [Query] is the function from the store to the rows it
      selects; [.all()], [.count()] and [.first()] run it in the [DB] monad,
      which threads the store and may raise;
    - a Python [float] is a binary64 primitive float; [math.exp] belongs to
      the C library and is a parameter that may raise;
    - [print] in the weather loop writes to stdout only and is left out. *)

From Stdlib Require Import ZArith Floats.PrimFloat.
From stdpp Require Import base option list numbers strings.

Set Warnings "-inexact-float".
Open Scope Z_scope.

(** ** Exceptions and the two monads *)

(** The exceptions the handlers can meet; every one of them is a subclass of
    Python's [Exception]. *)
Inductive PyExn : Type :=
  | ZeroDivisionError
  | OverflowError
  | ValueError
  | ValidationError (field : string)
  | HTTPException (status_code : Z) (detail : string).

Inductive result (A : Type) : Type :=
  | Ok (a : A)
  | Raise (e : PyExn).
Arguments Ok {A} a.
Arguments Raise {A} e.

#[global] Instance result_ret : MRet result := @Ok.
#[global] Instance result_bind : MBind result := λ A B f m,
  match m with Ok a => f a | Raise e => Raise e end.

(** [try: body except Exception as e: handler e]. *)
Definition try_except {A} (body : result A) (handler : PyExn → result A) : result A :=
  match body with Ok a => Ok a | Raise e => handler e end.

(** ** Data model *)

(** TIMESTAMP columns; the handlers never look inside them. *)
Definition datetime : Type := Z.

Module CaseReport.
Record t : Type := {
  id : Z;
  caseType : option string;
  numberOfCases : option float;
  latitude : option float;
  longitude : option float;
  weekNumber : option Z;
  fromDateTime : option datetime;
  toDateTime : option datetime;
  reportingDate : option datetime;
  reportingEntityType : option string;
  reportingEntityIdentifier : option float;
  sexGroupMaleCases : option float;
  sexGroupFemaleCases : option float;
  sexGroupUnknownCases : option float;
  ageGroup0To4Cases : option float;
  ageGroup5To18Cases : option float;
  ageGroup19To59Cases : option float;
  ageGroup60PlusCases : option float;
  ageGroupUnknownCases : option float;
  administrativeLevel : option Z
}.
End CaseReport.

(** [RainfallDailyWeightedAverage], [RelativeHumidityDailyAverage] and
    [TemperatureDailyMax] declare the same five columns; one row type serves
    the three tables. *)
Module Metric.
Record t : Type := {
  forecast_date : string;
  day_name : option string;
  value : option float;
  municipality_code : string;
  municipality_name : option string
}.

(** The composite primary key. *)
Definition pk (m : t) : string * string := (forecast_date m, municipality_code m).
End Metric.

(** The relational store, one field per [__tablename__]. *)
Record Store : Type := {
  case_reports : list CaseReport.t;
  rainfall_daily_weighted_average : list Metric.t;
  rh_daily_avg_region : list Metric.t;
  tmax_daily_tmax_region : list Metric.t
}.

(** The primary keys declared by the table models. *)
Definition case_reports_pk (s : Store) : Prop :=
  NoDup (CaseReport.id <$> case_reports s).

Definition weather_pk (s : Store) : Prop :=
  NoDup (Metric.pk <$> rh_daily_avg_region s) ∧
  NoDup (Metric.pk <$> tmax_daily_tmax_region s) ∧
  NoDup (Metric.pk <$> rainfall_daily_weighted_average s).

(** ** The session *)

Definition DB (A : Type) : Type := Store → Store * result A.

#[global] Instance DB_ret : MRet DB := λ A a s, (s, Ok a).
#[global] Instance DB_bind : MBind DB := λ A B f m s,
  match m s with
  | (s', Ok a) => f a s'
  | (s', Raise e) => (s', Raise e)
  end.

Definition raise {A} (e : PyExn) : DB A := λ s, (s, Raise e).
Definition lift {A} (r : result A) : DB A := λ s, (s, r).

(** A query denotes the rows it selects from a store. *)
Definition Query (R : Type) : Type := Store → list R.

Definition q_filter {R} (P : R → bool) (q : Query R) : Query R :=
  λ s, filter (λ r, P r) (q s).
Definition q_offset {R} (n : Z) (q : Query R) : Query R :=
  λ s, drop (Z.to_nat n) (q s).
Definition q_limit {R} (n : Z) (q : Query R) : Query R :=
  λ s, take (Z.to_nat n) (q s).

(** Running a query is a SELECT: it reads the store and leaves it as it is. *)
Definition q_all {R} (q : Query R) : DB (list R) := λ s, (s, Ok (q s)).
Definition q_count {R} (q : Query R) : DB Z := λ s, (s, Ok (Z.of_nat (length (q s)))).
Definition q_first {R} (q : Query R) : DB (option R) := λ s, (s, Ok (head (q s))).

(** SQL [=]: true only when both sides are present and equal. *)
Definition sql_eq `{EqDecision A} (a b : option A) : bool :=
  match a, b with
  | Some x, Some y => bool_decide (x = y)
  | _, _ => false
  end.

(** Python truthiness of an optional [str] and of an optional [int]. *)
Definition truthy_str (v : option string) : bool :=
  match v with
  | None => false
  | Some x => negb (bool_decide (x = EmptyString))
  end.

Definition truthy_int (v : option Z) : bool :=
  match v with
  | None => false
  | Some x => negb (bool_decide (x = 0))
  end.

(** ** Case reports *)

(** The query of [get_case_reports] once the filters are applied (lines
    146-154). *)
Definition case_reports_query
    (caseType reportingEntityType : option string) (weekNumber : option Z)
    : Query CaseReport.t :=
  let query : Query CaseReport.t := case_reports in
  let query :=
    if truthy_str caseType
    then q_filter (λ r, sql_eq (CaseReport.caseType r) caseType) query
    else query in
  let query :=
    if truthy_str reportingEntityType
    then q_filter (λ r, sql_eq (CaseReport.reportingEntityType r) reportingEntityType) query
    else query in
  let query :=
    if truthy_int weekNumber
    then q_filter (λ r, sql_eq (CaseReport.weekNumber r) weekNumber) query
    else query in
  query.

(** [page: int = Query(1, ge=1)], [page_size: int = Query(10, ge=1, le=100)]:
    the framework calls the handler only with such values. *)
Definition valid_paging (page page_size : Z) : Prop :=
  1 ≤ page ∧ 1 ≤ page_size ≤ 100.

Definition get_case_reports
    (caseType reportingEntityType : option string) (weekNumber : option Z)
    (page page_size : Z) : DB (list CaseReport.t) :=
  let query := case_reports_query caseType reportingEntityType weekNumber in
  total_records ← q_count query;
  let offset := (page - 1) * page_size in
  let query := q_limit page_size (q_offset offset query) in
  case_reports ← q_all query;
  match case_reports with
  | [] => raise (HTTPException 404 "No case reports found")
  | _ => mret case_reports
  end.

Definition get_case_report (report_id : Z) : DB CaseReport.t :=
  report ← q_first (q_filter (λ r, bool_decide (CaseReport.id r = report_id)) case_reports);
  match report with
  | None => raise (HTTPException 404 "Case report not found")
  | Some report => mret report
  end.

(** ** Weather: the heat index *)

(** [math.exp] of the C library: a double, or OverflowError. *)
Class MathModule : Type := { math_exp : float → result float }.

(** Python's [a / b] on floats raises on a zero divisor of either sign. *)
Definition py_div (a b : float) : result float :=
  if PrimFloat.eqb b 0%float then Raise ZeroDivisionError else Ok (a / b)%float.

Section heat_index.
Context {libm : MathModule}.
Local Open Scope float_scope.

(** The right-hand side of line 190, operands evaluated left to right. *)
Definition heat_index_expr (temperature : float) : result float :=
  a ← py_div 1 273.15;
  b ← py_div 1 (273.15 + temperature);
  e ← math_exp (5417.7530 * (a - b));
  mret (temperature + 0.5555 * (6.11 * e - 10)).

Definition compute_heat_index (temperature humidity : option float)
    : result (option float) :=
  match temperature, humidity with
  | Some temperature, Some _ =>
      try_except
        (heat_index ← heat_index_expr temperature; mret (Some heat_index))
        (λ e, mret None)
  | _, _ => mret None
  end.
End heat_index.

(** ** Weather: the join *)

(** A row of the SELECT of [fetch_weather_data], one field per label. *)
Module Row.
Record t : Type := {
  forecast_date : string;
  day_name : option string;
  municipality_name : option string;
  relative_humidity : option float;
  temperature_max : option float;
  rainfall : option float
}.
End Row.

Module WeatherData.
Record t : Type := {
  forecast_date : string;
  day_name : string;
  municipality_name : string;
  relative_humidity : option float;
  temperature_max : option float;
  rainfall : option float;
  heat_index : option float
}.

(** The constructor validates its keyword arguments against the field
    types: [str] refuses None, [float | None] takes it. *)
Definition init (forecast_date : string) (day_name municipality_name : option string)
    (relative_humidity temperature_max rainfall heat_index : option float) : result t :=
  match day_name, municipality_name with
  | Some d, Some m =>
      Ok {| forecast_date := forecast_date; day_name := d; municipality_name := m;
            relative_humidity := relative_humidity; temperature_max := temperature_max;
            rainfall := rainfall; heat_index := heat_index |}
  | None, Some _ => Raise (ValidationError "day_name")
  | Some _, None => Raise (ValidationError "municipality_name")
  | None, None => Raise (ValidationError "day_name, municipality_name")
  end.
End WeatherData.

(** LEFT OUTER JOIN: every left row is kept, paired with each right row the
    ON clause accepts, or with NULLs when it accepts none. *)
Definition joined_with {L R} (on : L → R → bool) (right : list R) (l : L)
    : list (L * option R) :=
  match filter (λ r, on l r) right with
  | [] => [(l, None)]
  | matches => (λ r, (l, Some r)) <$> matches
  end.

Definition outer_join {L R} (on : L → R → bool) (right : list R) (left : list L)
    : list (L * option R) :=
  left ≫= joined_with on right.

Definition q_outerjoin {L R} (right : Query R) (on : L → R → bool) (q : Query L)
    : Query (L * option R) :=
  λ s, outer_join on (right s) (q s).

Definition q_select {R C} (columns : R → C) (q : Query R) : Query C :=
  λ s, columns <$> q s.

(** The [and_] of the three column equalities of both ON clauses. *)
Definition same_key (h m : Metric.t) : bool :=
  bool_decide (Metric.forecast_date h = Metric.forecast_date m)
  && sql_eq (Metric.day_name h) (Metric.day_name m)
  && bool_decide (Metric.municipality_code h = Metric.municipality_code m).

(** The humidity row, then the joined temperature and rainfall rows. *)
Definition Joined : Type := Metric.t * option Metric.t * option Metric.t.

Definition anchor (j : Joined) : Metric.t := j.1.1.

Definition columns (j : Joined) : Row.t :=
  {| Row.forecast_date := Metric.forecast_date (anchor j);
     Row.day_name := Metric.day_name (anchor j);
     Row.municipality_name := Metric.municipality_name (anchor j);
     Row.relative_humidity := Metric.value (anchor j);
     Row.temperature_max := j.1.2 ≫= Metric.value;
     Row.rainfall := j.2 ≫= Metric.value |}.

(** Lines 203-233: the two joins and the filters on the anchor's columns. *)
Definition weather_query (forecast_date municipality_code municipality_name : option string)
    : Query Joined :=
  let query : Query Joined :=
    q_outerjoin rainfall_daily_weighted_average (λ j r, same_key j.1 r)
      (q_outerjoin tmax_daily_tmax_region same_key rh_daily_avg_region) in
  let query :=
    if truthy_str forecast_date
    then q_filter (λ j, sql_eq (Some (Metric.forecast_date (anchor j))) forecast_date) query
    else query in
  let query :=
    if truthy_str municipality_code
    then q_filter (λ j, sql_eq (Some (Metric.municipality_code (anchor j))) municipality_code) query
    else query in
  let query :=
    if truthy_str municipality_name
    then q_filter (λ j, sql_eq (Metric.municipality_name (anchor j)) municipality_name) query
    else query in
  query.

Section weather.
Context {libm : MathModule}.

(** The loop of lines 239-252; the first exception ends it. *)
Fixpoint weather_loop (results : list Row.t) : result (list WeatherData.t) :=
  match results with
  | [] => mret []
  | row :: results =>
      heat_index ← compute_heat_index (Row.temperature_max row) (Row.relative_humidity row);
      w ← WeatherData.init (Row.forecast_date row) (Row.day_name row)
            (Row.municipality_name row) (Row.relative_humidity row)
            (Row.temperature_max row) (Row.rainfall row) heat_index;
      weather_data ← weather_loop results;
      mret (w :: weather_data)
  end.

Definition fetch_weather_data
    (forecast_date municipality_code municipality_name : option string)
    : DB (list WeatherData.t) :=
  let query := weather_query forecast_date municipality_code municipality_name in
  results ← q_all (q_select columns query);
  match results with
  | [] => raise (HTTPException 404 "No data found for the given filters")
  | _ => lift (weather_loop results)
  end.
End weather.

(** ** Sample stores

    Concrete data on which the handlers are evaluated below. *)

(** A stand-in for the C library on concrete inputs: [(1 + x/1024)^1024] by
    ten squarings, and OverflowError beyond the largest argument whose
    exponential is a finite double. *)
Definition approx_exp (x : float) : result float :=
  if PrimFloat.ltb 709.782712893384%float x then Raise OverflowError
  else
    let sq (y : float) := (y * y)%float in
    Ok (sq (sq (sq (sq (sq (sq (sq (sq (sq (sq (1 + x / 1024)%float)))))))))).

Definition approx_math : MathModule := {| math_exp := approx_exp |}.

(** A case report whose other columns are NULL. *)
Definition report (id : Z) (caseType : option string) (weekNumber : option Z)
    (reportingEntityType : option string) : CaseReport.t :=
  {| CaseReport.id := id; CaseReport.caseType := caseType;
     CaseReport.numberOfCases := None; CaseReport.latitude := None;
     CaseReport.longitude := None; CaseReport.weekNumber := weekNumber;
     CaseReport.fromDateTime := None; CaseReport.toDateTime := None;
     CaseReport.reportingDate := None;
     CaseReport.reportingEntityType := reportingEntityType;
     CaseReport.reportingEntityIdentifier := None;
     CaseReport.sexGroupMaleCases := None; CaseReport.sexGroupFemaleCases := None;
     CaseReport.sexGroupUnknownCases := None; CaseReport.ageGroup0To4Cases := None;
     CaseReport.ageGroup5To18Cases := None; CaseReport.ageGroup19To59Cases := None;
     CaseReport.ageGroup60PlusCases := None; CaseReport.ageGroupUnknownCases := None;
     CaseReport.administrativeLevel := None |}.

Definition dengue_1 : CaseReport.t := report 1 (Some "dengue"%string) (Some 12) (Some "hospital"%string).
Definition dengue_2 : CaseReport.t := report 2 (Some "dengue"%string) (Some 13) (Some "clinic"%string).
Definition malaria_3 : CaseReport.t := report 3 (Some "malaria"%string) (Some 12) (Some "hospital"%string).
Definition dengue_4 : CaseReport.t := report 4 (Some "dengue"%string) (Some 12) None.
Definition cholera_5 : CaseReport.t := report 5 (Some "cholera"%string) None (Some "clinic"%string).

Definition metric (forecast_date : string) (day_name : option string) (value : option float)
    (municipality_code : string) (municipality_name : option string) : Metric.t :=
  {| Metric.forecast_date := forecast_date; Metric.day_name := day_name;
     Metric.value := value; Metric.municipality_code := municipality_code;
     Metric.municipality_name := municipality_name |}.

(** Humidity for two municipalities; temperature and rainfall for the first
    only. *)
Definition rh_dili : Metric.t :=
  metric "2024-05-01" (Some "Wednesday"%string) (Some 80%float) "TL-DI" (Some "Dili"%string).
Definition rh_baucau : Metric.t :=
  metric "2024-05-01" (Some "Wednesday"%string) (Some 70%float) "TL-BA" (Some "Baucau"%string).
Definition tmax_dili : Metric.t :=
  metric "2024-05-01" (Some "Wednesday"%string) (Some 30%float) "TL-DI" (Some "Dili"%string).
Definition rain_dili : Metric.t :=
  metric "2024-05-01" (Some "Wednesday"%string) (Some 2.5%float) "TL-DI" (Some "Dili"%string).

Definition sample_store : Store :=
  {| case_reports := [dengue_1; dengue_2; malaria_3; dengue_4; cholera_5];
     rainfall_daily_weighted_average := [rain_dili];
     rh_daily_avg_region := [rh_dili; rh_baucau];
     tmax_daily_tmax_region := [tmax_dili] |}.

(** A humidity row whose [day_name] is NULL, which the column allows. *)
Definition rh_unnamed_day : Metric.t :=
  metric "2024-05-02" None (Some 75%float) "TL-DI" (Some "Dili"%string).

Definition store_null_day_name : Store :=
  {| case_reports := [];
     rainfall_daily_weighted_average := [];
     rh_daily_avg_region := [rh_unnamed_day];
     tmax_daily_tmax_region := [] |}.

(** What the weather fetch answers for Baucau on the sample store. *)
Definition baucau_answer : WeatherData.t :=
  {| WeatherData.forecast_date := "2024-05-01";
     WeatherData.day_name := "Wednesday";
     WeatherData.municipality_name := "Baucau";
     WeatherData.relative_humidity := Some 70%float;
     WeatherData.temperature_max := None;
     WeatherData.rainfall := None;
     WeatherData.heat_index := None |}.

(** The rows the weather fetch answers on the sample store: Dili with its
    three metrics and its heat index, then Baucau. *)
Definition sample_answers : list WeatherData.t :=
  Eval vm_compute in
    match (fetch_weather_data (libm := approx_math) None None None sample_store).2 with
    | Ok rows => rows
    | Raise _ => []
    end.

Definition dili_answer : WeatherData.t :=
  Eval vm_compute in default baucau_answer (sample_answers !! 0%nat).

(** ** Vocabulary of the properties *)

(** The rows of page [page] when [rows] is cut into pages of [page_size]. *)
Definition page_slice {R} (page page_size : Z) (rows : list R) : list R :=
  take (Z.to_nat page_size) (drop (Z.to_nat ((page - 1) * page_size)) rows).

(** The number of non-empty pages. *)
Definition page_count (total page_size : nat) : nat :=
  ((total + page_size - 1) / page_size)%nat.

Definition NotFound (detail : string) : PyExn := HTTPException 404 detail.

(** A humidity row passes the filters that were supplied with a truthy
    value. *)
Definition anchor_selected
    (forecast_date municipality_code municipality_name : option string)
    (h : Metric.t) : bool :=
  (negb (truthy_str forecast_date)
   || sql_eq (Some (Metric.forecast_date h)) forecast_date)
  && (negb (truthy_str municipality_code)
      || sql_eq (Some (Metric.municipality_code h)) municipality_code)
  && (negb (truthy_str municipality_name)
      || sql_eq (Metric.municipality_name h) municipality_name).

(** The row of [table] that the ON clause pairs with the humidity row [h]. *)
Definition matching (table : list Metric.t) (h : Metric.t) : option Metric.t :=
  head (filter (λ m, same_key h m) table).

(** The humidity row carries the two names that [WeatherData] requires. *)
Definition named (h : Metric.t) : Prop :=
  is_Some (Metric.day_name h) ∧ is_Some (Metric.municipality_name h).

(** What a response row [w] owes to the humidity row [h] it comes from. *)
Record observation {libm : MathModule} (s : Store) (h : Metric.t) (w : WeatherData.t) : Prop := {
  obs_forecast_date : WeatherData.forecast_date w = Metric.forecast_date h;
  obs_day_name : Metric.day_name h = Some (WeatherData.day_name w);
  obs_municipality_name :
    Metric.municipality_name h = Some (WeatherData.municipality_name w);
  obs_relative_humidity : WeatherData.relative_humidity w = Metric.value h;
  obs_temperature_max : ∀ t, t ∈ tmax_daily_tmax_region s → same_key h t →
    WeatherData.temperature_max w = Metric.value t;
  obs_no_temperature_max :
    Forall (λ t, ¬ same_key h t) (tmax_daily_tmax_region s) →
    WeatherData.temperature_max w = None ∧ WeatherData.heat_index w = None;
  obs_rainfall : ∀ r, r ∈ rainfall_daily_weighted_average s → same_key h r →
    WeatherData.rainfall w = Metric.value r;
  obs_no_rainfall :
    Forall (λ r, ¬ same_key h r) (rainfall_daily_weighted_average s) →
    WeatherData.rainfall w = None;
  obs_heat_index :
    compute_heat_index (WeatherData.temperature_max w) (WeatherData.relative_humidity w)
    = Ok (WeatherData.heat_index w);
  obs_no_heat_index :
    WeatherData.temperature_max w = None → WeatherData.heat_index w = None
}.

(** The right row, or the NULLs, that an outer join may pair with the left
    row [l]. *)
Definition partner {L R} (on : L → R → bool) (right : list R) (l : L) (o : option R)
    : Prop :=
  match o with
  | Some r => r ∈ right ∧ on l r
  | None => Forall (λ r, ¬ on l r) right
  end.

(** The value [v] is that of a row of [table] with the key of [h], or is
    absent because the table has no such row. *)
Definition joined_value (table : list Metric.t) (h : Metric.t) (v : option float) : Prop :=
  (Forall (λ m, ¬ same_key h m) table ∧ v = None)
  ∨ (∃ m, m ∈ table ∧ same_key h m ∧ v = Metric.value m).

(** The response row [w] repeats the query row [row] and adds its heat
    index. *)
Record built_from {libm : MathModule} (row : Row.t) (w : WeatherData.t) : Prop := {
  built_forecast_date : WeatherData.forecast_date w = Row.forecast_date row;
  built_day_name : Row.day_name row = Some (WeatherData.day_name w);
  built_municipality_name :
    Row.municipality_name row = Some (WeatherData.municipality_name w);
  built_relative_humidity :
    WeatherData.relative_humidity w = Row.relative_humidity row;
  built_temperature_max : WeatherData.temperature_max w = Row.temperature_max row;
  built_rainfall : WeatherData.rainfall w = Row.rainfall row;
  built_heat_index :
    compute_heat_index (Row.temperature_max row) (Row.relative_humidity row)
    = Ok (WeatherData.heat_index w)
}.

(** Where the fields of a response row come from, whatever the keys of the
    tables. *)
Record provenance (s : Store) (h : Metric.t) (w : WeatherData.t) : Prop := {
  from_forecast_date : WeatherData.forecast_date w = Metric.forecast_date h;
  from_day_name : Metric.day_name h = Some (WeatherData.day_name w);
  from_municipality_name :
    Metric.municipality_name h = Some (WeatherData.municipality_name w);
  from_relative_humidity : WeatherData.relative_humidity w = Metric.value h;
  from_temperature_max :
    joined_value (tmax_daily_tmax_region s) h (WeatherData.temperature_max w);
  from_rainfall :
    joined_value (rainfall_daily_weighted_average s) h (WeatherData.rainfall w)
}.

(** * Properties *)

(** ** Heat index *)

Section heat_index_properties.
Context {libm : MathModule}.
Local Open Scope float_scope.

Lemma py_div_nonzero (a b : float) :
  PrimFloat.eqb b 0 = false → py_div a b = Ok (a / b).
Proof. unfold py_div. by intros ->. Qed.

Lemma py_div_zero (a b : float) :
  PrimFloat.eqb b 0 = true → py_div a b = Raise ZeroDivisionError.
Proof. unfold py_div. by intros ->. Qed.

(** The expression of line 190 as a value: it raises exactly when the
    divisor [273.15 + T] is zero or [math.exp] raises. *)
Lemma heat_index_expr_eq (T : float) :
  heat_index_expr T =
    if PrimFloat.eqb (273.15 + T) 0 then Raise ZeroDivisionError
    else match math_exp (5417.7530 * (1 / 273.15 - 1 / (273.15 + T))) with
         | Ok e => Ok (T + 0.5555 * (6.11 * e - 10))
         | Raise x => Raise x
         end.
Proof.
  unfold heat_index_expr.
  rewrite (py_div_nonzero 1 273.15) by reflexivity.
  destruct (PrimFloat.eqb (273.15 + T) 0) eqn:Hz.
  - by rewrite py_div_zero.
  - rewrite py_div_nonzero by done. cbn.
    by destruct (math_exp _).
Qed.

(** [compute_heat_index] never raises. *)
Lemma compute_heat_index_returns (T H : option float) :
  ∃ v, compute_heat_index T H = Ok v.
Proof.
  destruct T as [t|], H as [h|]; try (by eexists).
  unfold compute_heat_index. destruct (heat_index_expr t); by eexists.
Qed.

Lemma compute_heat_index_no_temperature (H : option float) :
  compute_heat_index None H = Ok None.
Proof. reflexivity. Qed.

(** C2: on present inputs [compute_heat_index] returns the formula
    [T + 0.5555 * (6.11 * exp(5417.7530 * (1/273.15 - 1/(273.15 + T))) - 10)]
    computed in binary64, and returns None, without raising, when the
    division or [math.exp] raises; at [T = -273.15] the divisor is zero and
    the result is None. *)
Theorem compute_heat_index_formula (T H : float) :
  compute_heat_index (Some T) (Some H) =
    Ok (if PrimFloat.eqb (273.15 + T) 0 then None
        else match math_exp (5417.7530 * (1 / 273.15 - 1 / (273.15 + T))) with
             | Ok e => Some (T + 0.5555 * (6.11 * e - 10))
             | Raise _ => None
             end)
  ∧ compute_heat_index (Some (-273.15)) (Some H) = Ok None.
Proof.
  split.
  - unfold compute_heat_index. rewrite heat_index_expr_eq.
    destruct (PrimFloat.eqb (273.15 + T) 0); [done|].
    by destruct (math_exp _).
  - unfold compute_heat_index. rewrite heat_index_expr_eq.
    reflexivity.
Qed.

(** C3: the humidity argument has no influence on the heat index: for a
    fixed temperature, any two present humidities give the same result. *)
Theorem compute_heat_index_humidity_blind (T : option float) (H1 H2 : float) :
  compute_heat_index T (Some H1) = compute_heat_index T (Some H2).
Proof. by destruct T. Qed.

(** C8: with an absent temperature or an absent humidity
    [compute_heat_index] returns None, and returns it normally. *)
Theorem compute_heat_index_absent (T H : option float) :
  compute_heat_index None H = Ok None ∧ compute_heat_index T None = Ok None.
Proof. split; [done | by destruct T]. Qed.
End heat_index_properties.

(** ** Case reports: running the handlers *)

Lemma sql_eq_Some `{EqDecision A} (a : option A) (c : A) :
  sql_eq a (Some c) ↔ a = Some c.
Proof.
  destruct a as [x|]; simpl.
  - rewrite bool_decide_spec. naive_solver.
  - naive_solver.
Qed.

(** Zero and the empty string are falsy, as None is. *)
Lemma truthy_int_zero : truthy_int (Some 0) = truthy_int None.
Proof. done. Qed.

Lemma truthy_str_empty : truthy_str (Some EmptyString) = truthy_str None.
Proof. done. Qed.

(** The handler reads the filtered rows, cuts the page out of them, and
    raises when the page is empty. *)
Lemma get_case_reports_run caseType reportingEntityType weekNumber page page_size s :
  get_case_reports caseType reportingEntityType weekNumber page page_size s =
    (s, match page_slice page page_size
                (case_reports_query caseType reportingEntityType weekNumber s) with
        | [] => Raise (NotFound "No case reports found")
        | rows => Ok rows
        end).
Proof.
  unfold get_case_reports, page_slice, q_limit, q_offset.
  unfold mbind, DB_bind, q_count, q_all. simpl.
  by destruct (take _ _).
Qed.

Lemma get_case_reports_found caseType reportingEntityType weekNumber page page_size s :
  page_slice page page_size (case_reports_query caseType reportingEntityType weekNumber s) ≠ [] →
  (get_case_reports caseType reportingEntityType weekNumber page page_size s).2 =
    Ok (page_slice page page_size (case_reports_query caseType reportingEntityType weekNumber s)).
Proof.
  intros Hne. rewrite get_case_reports_run. simpl.
  by destruct (page_slice _ _ _).
Qed.

Lemma get_case_reports_not_found caseType reportingEntityType weekNumber page page_size s :
  page_slice page page_size (case_reports_query caseType reportingEntityType weekNumber s) = [] →
  (get_case_reports caseType reportingEntityType weekNumber page page_size s).2 =
    Raise (NotFound "No case reports found").
Proof. intros Hnil. rewrite get_case_reports_run. simpl. by rewrite Hnil. Qed.

(** A filter added under [if b:] keeps the rows of the query, and only those
    passing [P] when [b] holds. *)
Lemma elem_of_cond_filter {R} (b : bool) (P : R → bool) (q : Query R) s r :
  r ∈ (if b then q_filter P q else q) s → r ∈ q s ∧ (b → P r).
Proof.
  destruct b; unfold q_filter.
  - rewrite list_elem_of_filter. tauto.
  - intros Hr. split; [done | intros []].
Qed.

(** Every row of the filtered query is a stored row that passes each filter
    supplied with a truthy value. *)
Lemma case_reports_query_elem caseType reportingEntityType weekNumber s r :
  r ∈ case_reports_query caseType reportingEntityType weekNumber s →
  r ∈ case_reports s
  ∧ (truthy_str caseType → sql_eq (CaseReport.caseType r) caseType)
  ∧ (truthy_str reportingEntityType →
     sql_eq (CaseReport.reportingEntityType r) reportingEntityType)
  ∧ (truthy_int weekNumber → sql_eq (CaseReport.weekNumber r) weekNumber).
Proof.
  unfold case_reports_query. intros Hr.
  apply elem_of_cond_filter in Hr as [Hr Hw].
  apply elem_of_cond_filter in Hr as [Hr He].
  apply elem_of_cond_filter in Hr as [Hr Hc].
  done.
Qed.

(** ** Paging *)

Section paging.
Context {R : Type}.
Implicit Types (l : list R) (k n : nat).

Lemma page_slice_nat l (p k : nat) :
  page_slice (Z.of_nat (S p)) (Z.of_nat k) l = take k (drop (p * k) l).
Proof.
  unfold page_slice. f_equal; [lia|]. f_equal. lia.
Qed.

Lemma length_page_slice l page page_size :
  0 ≤ page_size → Z.of_nat (length (page_slice page page_size l)) ≤ page_size.
Proof. intros. unfold page_slice. rewrite length_take. lia. Qed.

(** The first [n] chunks of [k] rows are the first [n * k] rows. *)
Lemma concat_chunks l k n :
  concat ((λ i, take k (drop (i * k) l)) <$> seq 0 n) = take (n * k) l.
Proof.
  induction n as [|n IH]; [done|].
  rewrite seq_S, fmap_app, concat_app, IH. simpl.
  rewrite app_nil_r, take_take_drop. f_equal. lia.
Qed.

Lemma page_count_covers total k :
  (0 < k)%nat → (total ≤ page_count total k * k)%nat.
Proof.
  intros Hk. unfold page_count.
  pose proof (Nat.mul_succ_div_gt (total + k - 1) k ltac:(lia)). lia.
Qed.

Lemma page_count_nonempty total k p :
  (0 < k)%nat → (p < page_count total k)%nat → (p * k < total)%nat.
Proof.
  intros Hk Hp. unfold page_count in Hp.
  pose proof (Nat.Div0.mul_div_le (total + k - 1) k). nia.
Qed.

Lemma page_slice_nonempty l (p k : nat) :
  (0 < k)%nat → (p * k < length l)%nat → take k (drop (p * k) l) ≠ [].
Proof.
  intros Hk Hp Hnil. apply (f_equal length) in Hnil.
  rewrite length_take, length_drop in Hnil. simpl in Hnil. lia.
Qed.

Lemma page_slice_beyond l (p k : nat) :
  (length l ≤ p * k)%nat → take k (drop (p * k) l) = [].
Proof. intros Hp. rewrite drop_ge by done. apply take_nil. Qed.
End paging.

Lemma page_slice_subseteq {R} page page_size (l : list R) :
  page_slice page page_size l ⊆ l.
Proof.
  unfold page_slice. etrans; [apply subseteq_take | apply subseteq_drop].
Qed.

(** C4: for valid [page] and [page_size] the list operation returns the
    slice of the filtered rows at offset [(page-1)*page_size], of length at
    most [page_size] (an empty slice is answered with NotFound); the pages
    [1..n] that hold rows all return, and their slices concatenated in order
    are the filtered rows, each exactly once; page [n+1] holds none. *)
Theorem get_case_reports_paging
    caseType reportingEntityType weekNumber page page_size s :
  valid_paging page page_size →
  let filtered := case_reports_query caseType reportingEntityType weekNumber s in
  let run p := (get_case_reports caseType reportingEntityType weekNumber p page_size s).2 in
  let n := page_count (length filtered) (Z.to_nat page_size) in
  (run page = Ok (page_slice page page_size filtered)
   ∨ page_slice page page_size filtered = []
     ∧ run page = Raise (NotFound "No case reports found"))
  ∧ Z.of_nat (length (page_slice page page_size filtered)) ≤ page_size
  ∧ Forall (λ p, run (Z.of_nat p) = Ok (page_slice (Z.of_nat p) page_size filtered)) (seq 1 n)
  ∧ concat ((λ p, page_slice (Z.of_nat p) page_size filtered) <$> seq 1 n) = filtered
  ∧ run (Z.of_nat (S n)) = Raise (NotFound "No case reports found").
Proof.
  intros [Hpage [Hsize _]]. cbv zeta.
  set (filtered := case_reports_query caseType reportingEntityType weekNumber s).
  set (k := Z.to_nat page_size).
  assert (Hk : (0 < k)%nat) by lia.
  assert (Hps : page_size = Z.of_nat k) by lia.
  split_and!.
  - destruct (page_slice page page_size filtered) eqn:Hslice.
    + right. split; [done|]. by apply get_case_reports_not_found.
    + left. rewrite <- Hslice.
      apply get_case_reports_found. fold filtered. by rewrite Hslice.
  - apply length_page_slice. lia.
  - apply Forall_seq. intros [|p] Hp; [lia|].
    apply get_case_reports_found. fold filtered.
    rewrite Hps, page_slice_nat.
    apply page_slice_nonempty; [done|].
    apply page_count_nonempty; [done|]. lia.
  - rewrite <- fmap_S_seq, <- list_fmap_compose.
    rewrite (list_fmap_ext _ (λ i, take k (drop (i * k) filtered))).
    + rewrite concat_chunks. apply take_ge.
      by apply page_count_covers.
    + intros i p _. simpl. rewrite Hps at 1. by rewrite page_slice_nat.
  - apply get_case_reports_not_found. fold filtered.
    rewrite Hps at 1. rewrite page_slice_nat. apply page_slice_beyond.
    by apply page_count_covers.
Qed.

(** C6 (amended): every record the list operation returns equals, on
    [caseType], on [reportingEntityType] and on [weekNumber], each filter
    value that was supplied non-empty (for the texts) or non-zero (for the
    week number); the filters hold together. *)
Theorem get_case_reports_filters
    caseType reportingEntityType weekNumber page page_size s rows r :
  (get_case_reports caseType reportingEntityType weekNumber page page_size s).2 = Ok rows →
  r ∈ rows →
  (∀ C, caseType = Some C → C ≠ EmptyString → CaseReport.caseType r = Some C)
  ∧ (∀ E, reportingEntityType = Some E → E ≠ EmptyString →
       CaseReport.reportingEntityType r = Some E)
  ∧ (∀ W, weekNumber = Some W → W ≠ 0 → CaseReport.weekNumber r = Some W).
Proof.
  rewrite get_case_reports_run. simpl. intros Hrun Hr.
  assert (Hin : r ∈ case_reports_query caseType reportingEntityType weekNumber s).
  { apply (page_slice_subseteq page page_size).
    destruct (page_slice _ _ _); [done|]. by simplify_eq. }
  apply case_reports_query_elem in Hin as (_ & Hc & He & Hw).
  split_and!.
  - intros C -> HC. apply sql_eq_Some, Hc. simpl. by rewrite bool_decide_eq_false_2.
  - intros E -> HE. apply sql_eq_Some, He. simpl. by rewrite bool_decide_eq_false_2.
  - intros W -> HW. apply sql_eq_Some, Hw. simpl. by rewrite bool_decide_eq_false_2.
Qed.

(** C7: [weekNumber=0] gives the list operation the result it gives with no
    [weekNumber] at all, in every store and for all other parameters. *)
Theorem get_case_reports_week_zero caseType reportingEntityType page page_size s :
  get_case_reports caseType reportingEntityType (Some 0) page page_size s =
  get_case_reports caseType reportingEntityType None page page_size s.
Proof.
  unfold get_case_reports, case_reports_query.
  by rewrite truthy_int_zero.
Qed.

(** ** Get by id *)

Lemma head_filter_id_unique (l : list CaseReport.t) (i : nat) (r : CaseReport.t) :
  NoDup (CaseReport.id <$> l) → l !! i = Some r →
  head (filter (λ x, bool_decide (CaseReport.id x = CaseReport.id r)) l) = Some r.
Proof.
  revert i. induction l as [|x l IH]; intros i Hnd Hi; [done|].
  rewrite fmap_cons in Hnd. apply NoDup_cons in Hnd as [Hx Hnd].
  destruct i as [|i]; simpl in Hi.
  - simplify_eq. rewrite filter_cons_True; [done|]. by apply bool_decide_pack.
  - rewrite filter_cons_False; [by eapply IH|].
    rewrite bool_decide_spec. intros Heq. apply Hx. rewrite Heq.
    apply list_elem_of_fmap_2. by eapply list_elem_of_lookup_2.
Qed.

Lemma filter_id_absent (l : list CaseReport.t) (report_id : Z) :
  Forall (λ r, CaseReport.id r ≠ report_id) l →
  filter (λ x, bool_decide (CaseReport.id x = report_id)) l = [].
Proof.
  induction 1 as [|x l Hx _ IH]; [done|].
  rewrite filter_cons_False; [done|]. by rewrite bool_decide_spec.
Qed.

(** C9: when the store holds a record with the given id, get-by-id returns
    that record, the only one with this id under the table's primary key;
    when no record has the id it fails with NotFound. *)
Theorem get_case_report_by_id (report_id : Z) (s : Store) :
  case_reports_pk s →
  (∀ i r, case_reports s !! i = Some r → CaseReport.id r = report_id →
     get_case_report report_id s = (s, Ok r))
  ∧ (Forall (λ r, CaseReport.id r ≠ report_id) (case_reports s) →
     get_case_report report_id s = (s, Raise (NotFound "Case report not found"))).
Proof.
  intros Hpk. unfold get_case_report, q_first, q_filter, mbind, DB_bind. split.
  - intros i r Hi <-. by rewrite (head_filter_id_unique _ i r).
  - intros Habsent. by rewrite filter_id_absent.
Qed.

(** ** The outer join *)

Lemma filter_all {A} (P : A → Prop) `{!∀ x, Decision (P x)} (l : list A) :
  Forall P l → filter P l = l.
Proof.
  induction 1 as [|x l Hx _ IH]; [done|].
  by rewrite filter_cons_True, IH.
Qed.

Lemma filter_none {A} (P : A → Prop) `{!∀ x, Decision (P x)} (l : list A) :
  Forall (λ x, ¬ P x) l → filter P l = [].
Proof.
  induction 1 as [|x l Hx _ IH]; [done|].
  by rewrite filter_cons_False.
Qed.

Section outer_join.
Context {L R : Type} (on : L → R → bool) (right : list R).

Lemma outer_join_cons l left :
  outer_join on right (l :: left) = joined_with on right l ++ outer_join on right left.
Proof. done. Qed.

Lemma joined_with_left l : Forall (λ j, j.1 = l) (joined_with on right l).
Proof.
  unfold joined_with. destruct (filter _ right) as [|r matches].
  - by repeat constructor.
  - apply Forall_fmap, Forall_true. done.
Qed.

Lemma joined_with_nonempty l : joined_with on right l ≠ [].
Proof. unfold joined_with. by destruct (filter _ right). Qed.

(** Every left row stays: the join is empty only when its left side is. *)
Lemma outer_join_nil left : outer_join on right left = [] ↔ left = [].
Proof.
  split; [|by intros ->].
  destruct left as [|l left]; [done|].
  rewrite outer_join_cons. intros [Hnil _]%app_eq_nil.
  by apply joined_with_nonempty in Hnil.
Qed.

(** A filter on the left columns may be applied before the join. *)
Lemma outer_join_filter (P : L → bool) left :
  filter (λ j, P j.1) (outer_join on right left)
  = outer_join on right (filter (λ l, P l) left).
Proof.
  induction left as [|l left IH]; [done|].
  rewrite outer_join_cons, filter_app, IH.
  destruct (P l) eqn:HP.
  - rewrite (filter_cons_True _ l) by (by rewrite HP).
    rewrite outer_join_cons. f_equal. apply filter_all.
    eapply Forall_impl; [apply joined_with_left|].
    intros j ->. by rewrite HP.
  - rewrite (filter_cons_False _ l) by (rewrite HP; apply Is_true_false_2; done).
    rewrite filter_none; [done|].
    eapply Forall_impl; [apply joined_with_left|].
    intros j ->. rewrite HP. by apply Is_true_false_2.
Qed.

(** When the ON clause accepts at most one right row per left row, the
    join pairs each left row with that row, if any. *)
Lemma outer_join_unique left :
  Forall (λ l, (length (filter (λ r, on l r) right) ≤ 1)%nat) left →
  outer_join on right left
  = (λ l, (l, head (filter (λ r, on l r) right))) <$> left.
Proof.
  induction 1 as [|l left Hl _ IH]; [done|].
  rewrite outer_join_cons, IH, fmap_cons. f_equal.
  unfold joined_with. destruct (filter _ right) as [|r [|r' matches]]; try done.
  simpl in Hl. lia.
Qed.
End outer_join.

Lemma same_key_pk (h m : Metric.t) : same_key h m → Metric.pk m = Metric.pk h.
Proof.
  unfold same_key, Metric.pk.
  intros [[Hd _]%andb_True Hc]%andb_True.
  apply bool_decide_unpack in Hd, Hc. by rewrite Hd, Hc.
Qed.

(** Under the primary key the ON clause accepts at most one row. *)
Lemma filter_same_key_unique (table : list Metric.t) (h : Metric.t) :
  NoDup (Metric.pk <$> table) →
  (length (filter (λ m, same_key h m) table) ≤ 1)%nat.
Proof.
  induction table as [|x l IH]; intros Hpk; [simpl; lia|].
  rewrite fmap_cons in Hpk. apply NoDup_cons in Hpk as [Hx Hl].
  rewrite filter_cons. case_decide as Hkey; [|by apply IH].
  rewrite filter_none; [simpl; lia|].
  apply Forall_forall. intros y Hy Hkey'. apply Hx.
  rewrite (same_key_pk h x), <- (same_key_pk h y) by done.
  by apply list_elem_of_fmap_2.
Qed.

Lemma matching_Some (table : list Metric.t) (h t : Metric.t) :
  NoDup (Metric.pk <$> table) →
  t ∈ table → same_key h t → matching table h = Some t.
Proof.
  intros Hpk Ht Hkey. unfold matching.
  pose proof (filter_same_key_unique table h Hpk) as Hlen.
  assert (Hin : t ∈ filter (λ m, same_key h m) table)
    by by apply list_elem_of_filter.
  destruct (filter _ table) as [|t' [|t'' l]]; simpl in *.
  - by apply elem_of_nil in Hin.
  - by apply list_elem_of_singleton in Hin as ->.
  - lia.
Qed.

Lemma matching_None (table : list Metric.t) (h : Metric.t) :
  Forall (λ t, ¬ same_key h t) table → matching table h = None.
Proof. intros Hno. unfold matching. by rewrite filter_none. Qed.

(** ** The weather query *)

Lemma cond_filter_eq {R} (b : bool) (P : R → bool) (q : Query R) s :
  (if b then q_filter P q else q) s = filter (λ r, negb b || P r) (q s).
Proof.
  destruct b; [done|]. symmetry. apply filter_all, Forall_true. done.
Qed.

(** The filters bear on the anchor alone, so the query is the double join of
    the humidity rows that pass them. *)
Lemma weather_query_selected forecast_date municipality_code municipality_name s :
  weather_query forecast_date municipality_code municipality_name s
  = outer_join (λ j r, same_key j.1 r) (rainfall_daily_weighted_average s)
      (outer_join same_key (tmax_daily_tmax_region s)
         (filter (λ h, anchor_selected forecast_date municipality_code municipality_name h)
            (rh_daily_avg_region s))).
Proof.
  unfold weather_query. rewrite !cond_filter_eq. unfold q_outerjoin.
  rewrite !list_filter_filter.
  rewrite <- (outer_join_filter same_key _
    (anchor_selected forecast_date municipality_code municipality_name)).
  rewrite <- (outer_join_filter _ _
    (λ j, anchor_selected forecast_date municipality_code municipality_name j.1)).
  apply list_filter_iff. intros j. unfold anchor_selected, anchor.
  rewrite !andb_True. tauto.
Qed.

Lemma weather_query_pk forecast_date municipality_code municipality_name s :
  weather_pk s →
  weather_query forecast_date municipality_code municipality_name s
  = (λ h, (h, matching (tmax_daily_tmax_region s) h,
              matching (rainfall_daily_weighted_average s) h))
    <$> filter (λ h, anchor_selected forecast_date municipality_code municipality_name h)
          (rh_daily_avg_region s).
Proof.
  intros (_ & Htmax & Hrain). rewrite weather_query_selected.
  rewrite (outer_join_unique same_key).
  - rewrite outer_join_unique.
    + by rewrite <- list_fmap_compose.
    + apply Forall_true. intros j. by apply filter_same_key_unique.
  - apply Forall_true. intros h. by apply filter_same_key_unique.
Qed.

Section weather_properties.
Context {libm : MathModule}.

Lemma fetch_weather_data_run forecast_date municipality_code municipality_name s :
  fetch_weather_data forecast_date municipality_code municipality_name s =
    (s, match columns <$> weather_query forecast_date municipality_code municipality_name s with
        | [] => Raise (NotFound "No data found for the given filters")
        | results => weather_loop results
        end).
Proof.
  unfold fetch_weather_data, q_select, mbind, DB_bind, q_all. simpl.
  by destruct (columns <$> _).
Qed.

Lemma weather_loop_cons row results :
  weather_loop (row :: results) =
    heat_index ← compute_heat_index (Row.temperature_max row) (Row.relative_humidity row);
    w ← WeatherData.init (Row.forecast_date row) (Row.day_name row)
          (Row.municipality_name row) (Row.relative_humidity row)
          (Row.temperature_max row) (Row.rainfall row) heat_index;
    weather_data ← weather_loop results;
    mret (w :: weather_data).
Proof. done. Qed.

(** The loop raises nothing but the constructor's ValidationError. *)
Lemma weather_loop_raises results e :
  weather_loop results = Raise e → ∃ field, e = ValidationError field.
Proof.
  induction results as [|row results IH]; [done|].
  rewrite weather_loop_cons. unfold mbind, result_bind.
  destruct (compute_heat_index_returns (Row.temperature_max row)
              (Row.relative_humidity row)) as [v ->].
  unfold WeatherData.init.
  destruct (Row.day_name row), (Row.municipality_name row);
    try (intros [= <-]; by eexists).
  destruct (weather_loop results); [done|].
  intros [= <-]. by apply IH.
Qed.

(** On named humidity rows the loop returns one observation per row. *)
Lemma weather_loop_observations s selected :
  weather_pk s → Forall named selected →
  ∃ rows,
    weather_loop (columns <$>
      ((λ h, (h, matching (tmax_daily_tmax_region s) h,
                 matching (rainfall_daily_weighted_average s) h)) <$> selected))
    = Ok rows
    ∧ Forall2 (observation s) selected rows.
Proof.
  intros (_ & Htmax & Hrain).
  induction 1 as [|h selected [[d Hd] [m Hm]] _ (rows & Hrows & Hobs)].
  { exists []. by split; [|constructor]. }
  rewrite !fmap_cons, weather_loop_cons. rewrite Hrows.
  unfold columns, anchor. simpl.
  destruct (compute_heat_index_returns
              (matching (tmax_daily_tmax_region s) h ≫= Metric.value)
              (Metric.value h)) as [v Hv].
  rewrite Hv, Hd, Hm. simpl. eexists. split; [done|].
  constructor; [|done]. split; simpl; try done.
  - intros t Ht Hkey. by rewrite (matching_Some _ h t).
  - intros Hno. rewrite matching_None in Hv |- * by done.
    simpl in Hv |- *. change (Ok None = Ok v) in Hv.
    split; [done|]. by simplify_eq.
  - intros r Hr Hkey. by rewrite (matching_Some _ h r).
  - intros Hno. by rewrite matching_None.
  - intros Hnone. rewrite Hnone in Hv. change (Ok None = Ok v) in Hv.
    by simplify_eq.
Qed.

(** The weather fetch returns a non-empty array when humidity rows pass the
    filters and all of them are named. *)
Lemma fetch_weather_data_returns forecast_date municipality_code municipality_name s :
  weather_pk s →
  filter (λ h, anchor_selected forecast_date municipality_code municipality_name h)
    (rh_daily_avg_region s) ≠ [] →
  Forall named
    (filter (λ h, anchor_selected forecast_date municipality_code municipality_name h)
       (rh_daily_avg_region s)) →
  ∃ rows,
    rows ≠ []
    ∧ (fetch_weather_data forecast_date municipality_code municipality_name s).2 = Ok rows.
Proof.
  intros Hpk Hne Hnamed.
  destruct (weather_loop_observations s _ Hpk Hnamed) as (rows & Hrows & Hobs).
  exists rows. split.
  - intros ->. by apply Forall2_nil_inv_r in Hobs.
  - rewrite fetch_weather_data_run, weather_query_pk by done.
    destruct (filter _ (rh_daily_avg_region s)) as [|h selected]; [done|].
    rewrite !fmap_cons in Hrows |- *. exact Hrows.
Qed.
End weather_properties.

Lemma weather_query_nil forecast_date municipality_code municipality_name s :
  weather_query forecast_date municipality_code municipality_name s = []
  ↔ filter (λ h, anchor_selected forecast_date municipality_code municipality_name h)
      (rh_daily_avg_region s) = [].
Proof.
  rewrite weather_query_selected.
  etrans; [apply outer_join_nil|]. apply outer_join_nil.
Qed.

Lemma fetch_weather_data_not_found_iff
    {libm : MathModule} forecast_date municipality_code municipality_name s :
  (fetch_weather_data forecast_date municipality_code municipality_name s).2
    = Raise (NotFound "No data found for the given filters")
  ↔ filter (λ h, anchor_selected forecast_date municipality_code municipality_name h)
      (rh_daily_avg_region s) = [].
Proof.
  rewrite <- weather_query_nil, fetch_weather_data_run. cbn [snd].
  destruct (weather_query _ _ _ s) as [|j joined]; [done|].
  rewrite fmap_cons. split; [|done].
  intros Hraise.
  apply (weather_loop_raises (columns j :: (columns <$> joined))) in Hraise
    as [field [=]].
Qed.

(** ** The weather fetch *)

(** C1 (amended): under the tables' primary keys, when every humidity row
    passing the supplied filters carries a day name and a municipality name,
    the weather fetch returns exactly one row per such humidity row, in
    order, also when no temperature or rainfall row has its key; the metric
    with no matching row is absent, and an absent temperature makes the heat
    index absent. *)
Theorem fetch_weather_data_left_join
    {libm : MathModule} forecast_date municipality_code municipality_name s :
  weather_pk s →
  let selected :=
    filter (λ h, anchor_selected forecast_date municipality_code municipality_name h)
      (rh_daily_avg_region s) in
  selected ≠ [] →
  Forall named selected →
  ∃ rows,
    (fetch_weather_data forecast_date municipality_code municipality_name s).2 = Ok rows
    ∧ Forall2 (observation s) selected rows.
Proof.
  intros Hpk selected Hne Hnamed.
  destruct (weather_loop_observations s selected Hpk Hnamed) as (rows & Hloop & Hobs).
  exists rows. split; [|exact Hobs].
  rewrite fetch_weather_data_run, weather_query_pk by done. fold selected.
  destruct selected as [|h selected']; [done|].
  rewrite !fmap_cons in Hloop |- *. exact Hloop.
Qed.

(** C5 (amended): the list operation fails with NotFound exactly when the
    page is empty and otherwise returns the non-empty page; the weather fetch
    fails with NotFound exactly when no humidity row passes the filters, and
    returns a non-empty array when the rows that pass carry their two names;
    neither changes the store. *)
Theorem not_found_iff_empty
    {libm : MathModule} caseType reportingEntityType weekNumber page page_size
    forecast_date municipality_code municipality_name s :
  valid_paging page page_size →
  weather_pk s →
  let slice := page_slice page page_size
                 (case_reports_query caseType reportingEntityType weekNumber s) in
  let selected :=
    filter (λ h, anchor_selected forecast_date municipality_code municipality_name h)
      (rh_daily_avg_region s) in
  let listed := get_case_reports caseType reportingEntityType weekNumber page page_size s in
  let fetched := fetch_weather_data forecast_date municipality_code municipality_name s in
  (listed.2 = Raise (NotFound "No case reports found") ↔ slice = [])
  ∧ (slice ≠ [] → listed.2 = Ok slice)
  ∧ listed.1 = s
  ∧ (fetched.2 = Raise (NotFound "No data found for the given filters") ↔ selected = [])
  ∧ (selected ≠ [] → Forall named selected →
     ∃ rows, rows ≠ [] ∧ fetched.2 = Ok rows)
  ∧ fetched.1 = s.
Proof.
  intros _ Hpk. cbv zeta. split_and!.
  - rewrite get_case_reports_run. simpl.
    by destruct (page_slice _ _ _).
  - apply get_case_reports_found.
  - by rewrite get_case_reports_run.
  - apply fetch_weather_data_not_found_iff.
  - intros Hne Hnamed. by apply fetch_weather_data_returns.
  - by rewrite fetch_weather_data_run.
Qed.

(** C10: an empty string for [caseType] or [reportingEntityType] on the list
    operation, or for [forecast_date], [municipality_code] or
    [municipality_name] on the weather fetch, gives the result of leaving
    that filter out, in every store. *)
Theorem empty_text_filter_is_no_filter
    {libm : MathModule} (a b : option string) (weekNumber : option Z)
    (page page_size : Z) (s : Store) :
  get_case_reports (Some EmptyString) b weekNumber page page_size s
    = get_case_reports None b weekNumber page page_size s
  ∧ get_case_reports a (Some EmptyString) weekNumber page page_size s
    = get_case_reports a None weekNumber page page_size s
  ∧ fetch_weather_data (Some EmptyString) a b s = fetch_weather_data None a b s
  ∧ fetch_weather_data a (Some EmptyString) b s = fetch_weather_data a None b s
  ∧ fetch_weather_data a b (Some EmptyString) s = fetch_weather_data a b None s.
Proof.
  unfold get_case_reports, case_reports_query, fetch_weather_data, weather_query.
  by rewrite truthy_str_empty.
Qed.

(** ** The handlers on the sample stores *)

Lemma sample_store_case_reports_pk : case_reports_pk sample_store.
Proof. unfold case_reports_pk. apply (bool_decide_unpack _). vm_compute. exact I. Defined.

Lemma sample_store_weather_pk : weather_pk sample_store.
Proof. unfold weather_pk. apply (bool_decide_unpack _). vm_compute. exact I. Defined.

Lemma sample_paging : valid_paging 2 2.
Proof. unfold valid_paging. repeat split; discriminate. Defined.

(** Three dengue reports in pages of two: pages 1 and 2 hold them all, page
    3 is not found. *)
Lemma get_case_reports_paging_witness :
  valid_paging 2 2
  ∧ concat ((λ p, page_slice (Z.of_nat p) 2
                    (case_reports_query (Some "dengue"%string) None None sample_store))
            <$> seq 1 2)
    = [dengue_1; dengue_2; dengue_4]
  ∧ (get_case_reports (Some "dengue"%string) None None 3 2 sample_store).2
    = Raise (NotFound "No case reports found").
Proof.
  split; [exact sample_paging|].
  destruct (get_case_reports_paging (Some "dengue"%string) None None 2 2
              sample_store sample_paging) as (_ & _ & _ & Hconcat & Hlast).
  split; [exact Hconcat | exact Hlast].
Defined.

(** Dengue reports of week 12. *)
Lemma get_case_reports_filters_witness :
  (get_case_reports (Some "dengue"%string) None (Some 12) 1 10 sample_store).2
    = Ok [dengue_1; dengue_4]
  ∧ dengue_4 ∈ [dengue_1; dengue_4]
  ∧ CaseReport.caseType dengue_4 = Some "dengue"%string
  ∧ CaseReport.weekNumber dengue_4 = Some 12.
Proof.
  assert (Hin : dengue_4 ∈ [dengue_1; dengue_4]) by (right; left).
  destruct (get_case_reports_filters (Some "dengue"%string) None (Some 12) 1 10
              sample_store [dengue_1; dengue_4] dengue_4 eq_refl Hin)
    as (HcaseType & _ & HweekNumber).
  split_and!; [reflexivity | exact Hin | |].
  - apply HcaseType; [reflexivity | discriminate].
  - apply HweekNumber; [reflexivity | discriminate].
Defined.

(** C6, as stated, fails on falsy filter values: with [weekNumber=0], or
    with an empty [caseType], the operation returns records whose week number
    is not 0 and whose case type is not empty. *)
Lemma get_case_reports_falsy_filter_counterexample :
  (get_case_reports None None (Some 0) 1 10 sample_store).2
    = Ok [dengue_1; dengue_2; malaria_3; dengue_4; cholera_5]
  ∧ CaseReport.weekNumber dengue_1 ≠ Some 0
  ∧ (get_case_reports (Some EmptyString) None None 1 10 sample_store).2
    = Ok [dengue_1; dengue_2; malaria_3; dengue_4; cholera_5]
  ∧ CaseReport.caseType dengue_1 ≠ Some EmptyString.
Proof. split_and!; [reflexivity | discriminate | reflexivity | discriminate]. Qed.

(** Report 3 is found, report 99 is not. *)
Lemma get_case_report_by_id_witness :
  case_reports_pk sample_store
  ∧ get_case_report 3 sample_store = (sample_store, Ok malaria_3)
  ∧ get_case_report 99 sample_store
    = (sample_store, Raise (NotFound "Case report not found")).
Proof.
  split; [exact sample_store_case_reports_pk|]. split.
  - destruct (get_case_report_by_id 3 sample_store sample_store_case_reports_pk)
      as [Hfound _].
    exact (Hfound 2%nat malaria_3 eq_refl eq_refl).
  - destruct (get_case_report_by_id 99 sample_store sample_store_case_reports_pk)
      as [_ Habsent].
    apply Habsent. repeat constructor; discriminate.
Defined.

Lemma sample_store_named :
  Forall named
    (filter (λ h, anchor_selected None None None h) (rh_daily_avg_region sample_store)).
Proof.
  change (Forall named [rh_dili; rh_baucau]).
  repeat (constructor; [split; by eexists|]). constructor.
Defined.

Lemma sample_store_selected :
  filter (λ h, anchor_selected None None None h) (rh_daily_avg_region sample_store) ≠ [].
Proof. discriminate. Defined.

(** Both humidity rows of the sample store are answered, the second one
    without temperature or rainfall. *)
Lemma fetch_weather_data_left_join_witness :
  weather_pk sample_store
  ∧ ∃ rows,
      (fetch_weather_data (libm := approx_math) None None None sample_store).2 = Ok rows
      ∧ Forall2 (observation (libm := approx_math) sample_store) [rh_dili; rh_baucau] rows.
Proof.
  split; [exact sample_store_weather_pk|].
  exact (fetch_weather_data_left_join (libm := approx_math) None None None sample_store
           sample_store_weather_pk sample_store_selected sample_store_named).
Defined.

(** C1, as stated, fails on a humidity row without a day name: the row
    passes the filters and the fetch answers with no row at all. *)
Lemma fetch_weather_data_unnamed_day_counterexample :
  weather_pk store_null_day_name
  ∧ filter (λ h, anchor_selected None None None h)
      (rh_daily_avg_region store_null_day_name) = [rh_unnamed_day]
  ∧ (fetch_weather_data (libm := approx_math) None None None store_null_day_name).2
    = Raise (ValidationError "day_name")
  ∧ ¬ ∃ rows,
        (fetch_weather_data (libm := approx_math) None None None store_null_day_name).2
        = Ok rows
        ∧ Forall2 (observation (libm := approx_math) store_null_day_name) [rh_unnamed_day] rows.
Proof.
  split_and!.
  - unfold weather_pk. apply (bool_decide_unpack _). vm_compute. exact I.
  - reflexivity.
  - reflexivity.
  - intros (rows & Hrows & _). discriminate Hrows.
Qed.

Lemma sample_first_page : valid_paging 1 10.
Proof. unfold valid_paging. repeat split; discriminate. Defined.

(** A date with no forecast is not found; neither handler touches the
    sample store. *)
Lemma not_found_iff_empty_witness :
  valid_paging 1 10
  ∧ weather_pk sample_store
  ∧ ((fetch_weather_data (libm := approx_math) (Some "2030-01-01"%string) None None
        sample_store).2
     = Raise (NotFound "No data found for the given filters")
     ↔ filter (λ h, anchor_selected (Some "2030-01-01"%string) None None h)
         (rh_daily_avg_region sample_store) = [])
  ∧ (get_case_reports (Some "dengue"%string) None None 1 10 sample_store).1 = sample_store
  ∧ (fetch_weather_data (libm := approx_math) (Some "2030-01-01"%string) None None
       sample_store).1 = sample_store.
Proof.
  split; [exact sample_first_page|]. split; [exact sample_store_weather_pk|].
  destruct (not_found_iff_empty (libm := approx_math) (Some "dengue"%string) None None
              1 10 (Some "2030-01-01"%string) None None sample_store
              sample_first_page sample_store_weather_pk)
    as (_ & _ & Hlisted & Hnot_found & _ & Hfetched).
  split_and!; [exact Hnot_found | exact Hlisted | exact Hfetched].
Defined.

(** C5, as stated, fails on a humidity row without a day name: the result
    set is not empty, yet the fetch neither fails with NotFound nor returns
    an array. *)
Lemma fetch_weather_data_no_array_counterexample :
  weather_query None None None store_null_day_name ≠ []
  ∧ (fetch_weather_data (libm := approx_math) None None None store_null_day_name).2
    ≠ Raise (NotFound "No data found for the given filters")
  ∧ ¬ ∃ rows,
        (fetch_weather_data (libm := approx_math) None None None store_null_day_name).2
        = Ok rows.
Proof.
  split_and!.
  - discriminate.
  - discriminate.
  - intros (rows & Hrows). discriminate Hrows.
Qed.

(** * Further properties *)

(** ** The list operation: which page holds what *)

Lemma case_reports_query_elem_iff caseType reportingEntityType weekNumber s r :
  r ∈ case_reports_query caseType reportingEntityType weekNumber s
  ↔ r ∈ case_reports s
    ∧ (truthy_str caseType → sql_eq (CaseReport.caseType r) caseType)
    ∧ (truthy_str reportingEntityType →
       sql_eq (CaseReport.reportingEntityType r) reportingEntityType)
    ∧ (truthy_int weekNumber → sql_eq (CaseReport.weekNumber r) weekNumber).
Proof.
  unfold case_reports_query. rewrite !cond_filter_eq, !list_elem_of_filter.
  destruct (truthy_str caseType), (truthy_str reportingEntityType),
    (truthy_int weekNumber); simpl; intuition.
Qed.

Lemma case_reports_query_sublist caseType reportingEntityType weekNumber s :
  case_reports_query caseType reportingEntityType weekNumber s
    `sublist_of` case_reports s.
Proof.
  unfold case_reports_query. rewrite !cond_filter_eq.
  do 2 (etrans; [apply sublist_filter|]). apply sublist_filter.
Qed.

Lemma page_slice_sublist {R} page page_size (l : list R) :
  page_slice page page_size l `sublist_of` l.
Proof.
  unfold page_slice. etrans; [apply sublist_take | apply sublist_drop].
Qed.

(** A returned row sits in the filtered rows at a position of its page. *)
Lemma elem_of_page_slice {R} (l : list R) (p k : nat) (x : R) :
  x ∈ take k (drop (p * k) l)
  ↔ ∃ i, l !! i = Some x ∧ (p * k ≤ i < p * k + k)%nat.
Proof.
  rewrite elem_of_take. split.
  - intros (i & Hi & Hlt). rewrite lookup_drop in Hi.
    exists (p * k + i)%nat. split; [done | lia].
  - intros (i & Hi & Hrange). exists (i - p * k)%nat.
    rewrite lookup_drop. replace (p * k + (i - p * k))%nat with i by lia.
    split; [done | lia].
Qed.

Lemma get_case_reports_Ok caseType reportingEntityType weekNumber page page_size s rows :
  (get_case_reports caseType reportingEntityType weekNumber page page_size s).2 = Ok rows →
  rows = page_slice page page_size
           (case_reports_query caseType reportingEntityType weekNumber s)
  ∧ rows ≠ [].
Proof.
  rewrite get_case_reports_run. simpl.
  destruct (page_slice _ _ _); [done|]. by intros [= <-].
Qed.

(** X1: a page is not found exactly when its offset reaches the number of rows
    that pass the filters. *)
Theorem get_case_reports_not_found_iff
    caseType reportingEntityType weekNumber page page_size s :
  valid_paging page page_size →
  (get_case_reports caseType reportingEntityType weekNumber page page_size s).2
    = Raise (NotFound "No case reports found")
  ↔ Z.of_nat (length (case_reports_query caseType reportingEntityType weekNumber s))
    ≤ (page - 1) * page_size.
Proof.
  intros [Hpage [Hsize _]]. rewrite get_case_reports_run. simpl.
  set (filtered := case_reports_query _ _ _ s).
  assert (Hlen : length (page_slice page page_size filtered)
                 = (Z.to_nat page_size `min`
                    (length filtered - Z.to_nat ((page - 1) * page_size)))%nat).
  { unfold page_slice. by rewrite length_take, length_drop. }
  destruct (page_slice page page_size filtered) as [|r rows]; simpl in Hlen.
  - split; [intros _ | done]. nia.
  - split; [done|]. nia.
Qed.

(** X2: a returned page holds [page_size] rows, or what is left of the filtered
    rows past its offset when that is less. *)
Theorem get_case_reports_length
    caseType reportingEntityType weekNumber page page_size s rows :
  valid_paging page page_size →
  (get_case_reports caseType reportingEntityType weekNumber page page_size s).2 = Ok rows →
  Z.of_nat (length rows)
  = page_size `min`
    (Z.of_nat (length (case_reports_query caseType reportingEntityType weekNumber s))
     - (page - 1) * page_size).
Proof.
  intros [Hpage [Hsize _]] [-> Hne]%get_case_reports_Ok.
  assert (Hlen : length (page_slice page page_size
            (case_reports_query caseType reportingEntityType weekNumber s)) ≠ 0%nat)
    by (intros Hnil; by apply Hne, nil_length_inv).
  assert (Hoffset : 0 ≤ (page - 1) * page_size) by nia.
  revert Hlen. unfold page_slice. rewrite length_take, length_drop.
  generalize dependent ((page - 1) * page_size). lia.
Qed.

Lemma sql_eq_refl_truthy_str (column filter : option string) :
  truthy_str filter → column = filter → sql_eq column filter.
Proof.
  intros Htruthy ->. destruct filter as [c|]; [|done].
  by apply sql_eq_Some.
Qed.

Lemma sql_eq_refl_truthy_int (column filter : option Z) :
  truthy_int filter → column = filter → sql_eq column filter.
Proof.
  intros Htruthy ->. destruct filter as [w|]; [|done].
  by apply sql_eq_Some.
Qed.

(** X3: nothing that passes the filters is left out: a stored record equal to
    each truthy filter value is returned on some page. *)
Theorem get_case_reports_complete
    caseType reportingEntityType weekNumber page_size s r :
  1 ≤ page_size ≤ 100 →
  r ∈ case_reports s →
  (truthy_str caseType → CaseReport.caseType r = caseType) →
  (truthy_str reportingEntityType → CaseReport.reportingEntityType r = reportingEntityType) →
  (truthy_int weekNumber → CaseReport.weekNumber r = weekNumber) →
  ∃ page rows,
    1 ≤ page
    ∧ (get_case_reports caseType reportingEntityType weekNumber page page_size s).2 = Ok rows
    ∧ r ∈ rows.
Proof.
  intros Hsize Hstored HcaseType Hentity Hweek.
  assert (Hin : r ∈ case_reports_query caseType reportingEntityType weekNumber s).
  { apply case_reports_query_elem_iff. split_and!; [done|..].
    - intros Ht. by apply sql_eq_refl_truthy_str, HcaseType.
    - intros Ht. by apply sql_eq_refl_truthy_str, Hentity.
    - intros Ht. by apply sql_eq_refl_truthy_int, Hweek. }
  apply list_elem_of_lookup_1 in Hin as [i Hi].
  set (k := Z.to_nat page_size).
  assert (Hk : (0 < k)%nat) by lia.
  assert (Hps : page_size = Z.of_nat k) by lia.
  assert (Hslice : r ∈ page_slice (Z.of_nat (S (i / k))) page_size
                         (case_reports_query caseType reportingEntityType weekNumber s)).
  { rewrite Hps, page_slice_nat. apply elem_of_page_slice. exists i.
    split; [done|].
    pose proof (Nat.div_mod_eq i k). pose proof (Nat.mod_upper_bound i k). lia. }
  exists (Z.of_nat (S (i / k))), (page_slice (Z.of_nat (S (i / k))) page_size
            (case_reports_query caseType reportingEntityType weekNumber s)).
  split_and!; [lia | | done].
  apply get_case_reports_found. intros Hnil. rewrite Hnil in Hslice.
  by apply elem_of_nil in Hslice.
Qed.

(** X4: a returned page is cut out of the stored table: its records are stored
    records in the table's order, and under the primary key no id comes
    twice. *)
Theorem get_case_reports_sublist
    caseType reportingEntityType weekNumber page page_size s rows :
  (get_case_reports caseType reportingEntityType weekNumber page page_size s).2 = Ok rows →
  rows `sublist_of` case_reports s
  ∧ (case_reports_pk s → NoDup (CaseReport.id <$> rows)).
Proof.
  intros [-> _]%get_case_reports_Ok.
  assert (Hsub : page_slice page page_size
            (case_reports_query caseType reportingEntityType weekNumber s)
          `sublist_of` case_reports s).
  { etrans; [apply page_slice_sublist | apply case_reports_query_sublist]. }
  split; [done|]. intros Hpk.
  apply (sublist_NoDup _ (CaseReport.id <$> case_reports s)); [exact Hpk|].
  by apply fmap_sublist.
Qed.

(** X5: under the primary key two different pages of one listing share no
    record. *)
Theorem get_case_reports_pages_disjoint
    caseType reportingEntityType weekNumber page page' page_size s rows rows' r r' :
  valid_paging page page_size →
  valid_paging page' page_size →
  page ≠ page' →
  case_reports_pk s →
  (get_case_reports caseType reportingEntityType weekNumber page page_size s).2 = Ok rows →
  (get_case_reports caseType reportingEntityType weekNumber page' page_size s).2 = Ok rows' →
  r ∈ rows → r' ∈ rows' →
  CaseReport.id r ≠ CaseReport.id r'.
Proof.
  intros [Hpage [Hsize _]] [Hpage' _] Hneq Hpk [-> _]%get_case_reports_Ok
    [-> _]%get_case_reports_Ok Hr Hr' Hid.
  set (k := Z.to_nat page_size) in *.
  assert (Hps : page_size = Z.of_nat k) by lia.
  assert (Hp : page = Z.of_nat (S (Z.to_nat (page - 1)))) by lia.
  assert (Hp' : page' = Z.of_nat (S (Z.to_nat (page' - 1)))) by lia.
  rewrite Hp, Hps, page_slice_nat in Hr. rewrite Hp', Hps, page_slice_nat in Hr'.
  apply elem_of_page_slice in Hr as (i & Hi & Hrange).
  apply elem_of_page_slice in Hr' as (j & Hj & Hrange').
  assert (Hnodup : NoDup (CaseReport.id <$>
            case_reports_query caseType reportingEntityType weekNumber s)).
  { apply (sublist_NoDup _ (CaseReport.id <$> case_reports s)); [exact Hpk|].
    apply fmap_sublist, case_reports_query_sublist. }
  assert (i = j).
  { eapply NoDup_lookup; [exact Hnodup | |].
    - rewrite list_lookup_fmap, Hi. done.
    - rewrite list_lookup_fmap, Hj. simpl. by rewrite Hid. }
  apply Hneq. nia.
Qed.

(** ** Get by id *)

Lemma head_filter_first {A} (P : A → Prop) `{!∀ x, Decision (P x)} (l : list A) (x : A) :
  head (filter P l) = Some x →
  ∃ i, l !! i = Some x ∧ P x ∧ ∀ j y, (j < i)%nat → l !! j = Some y → ¬ P y.
Proof.
  induction l as [|a l IH]; [done|].
  rewrite filter_cons. case_decide as Ha.
  - intros [= ->]. exists 0%nat. split_and!; [done..|]. intros j y Hj. lia.
  - intros (i & Hi & Hx & Hfirst)%IH. exists (S i). split_and!; [done..|].
    intros [|j] y Hj Hy; simpl in Hy.
    + by simplify_eq.
    + apply (Hfirst j); [lia | done].
Qed.

(** X6: without any assumption on the table: get-by-id answers with the first
    stored record that has the id, fails with NotFound only when no stored
    record has it, raises nothing else, and leaves the store as it is. *)
Theorem get_case_report_first (report_id : Z) (s : Store) :
  (∀ r, (get_case_report report_id s).2 = Ok r →
     ∃ i, case_reports s !! i = Some r
          ∧ CaseReport.id r = report_id
          ∧ ∀ j r', (j < i)%nat → case_reports s !! j = Some r' →
              CaseReport.id r' ≠ report_id)
  ∧ (∀ e, (get_case_report report_id s).2 = Raise e →
       e = NotFound "Case report not found"
       ∧ Forall (λ r, CaseReport.id r ≠ report_id) (case_reports s))
  ∧ (get_case_report report_id s).1 = s.
Proof.
  unfold get_case_report, q_first, q_filter, mbind, DB_bind.
  destruct (head _) as [r0|] eqn:Hhead; simpl.
  - split_and!; [|done..]. intros r [= <-].
    apply head_filter_first in Hhead as (i & Hi & Hid & Hfirst).
    exists i. split_and!; [done | by apply bool_decide_unpack in Hid |].
    intros j r' Hj Hr' Heq. apply (Hfirst j r' Hj Hr'). by apply bool_decide_pack.
  - split_and!; [done| |done]. intros e [= <-]. split; [done|].
    apply head_None in Hhead. apply Forall_forall. intros r Hr Heq.
    eapply filter_nil_not_elem_of; [exact Hhead | | exact Hr].
    by apply bool_decide_pack.
Qed.

(** X7: listing and get-by-id agree: under the primary key, every record the
    list operation returns is the record get-by-id returns for its id. *)
Theorem get_case_report_of_listed
    caseType reportingEntityType weekNumber page page_size s rows r :
  case_reports_pk s →
  (get_case_reports caseType reportingEntityType weekNumber page page_size s).2 = Ok rows →
  r ∈ rows →
  get_case_report (CaseReport.id r) s = (s, Ok r).
Proof.
  intros Hpk [-> _]%get_case_reports_Ok Hr.
  assert (Hstored : r ∈ case_reports s).
  { eapply elem_of_sublist; [exact Hr|].
    etrans; [apply page_slice_sublist | apply case_reports_query_sublist]. }
  apply list_elem_of_lookup_1 in Hstored as [i Hi].
  unfold get_case_report, q_first, q_filter, mbind, DB_bind.
  by rewrite (head_filter_id_unique _ i r).
Qed.

(** ** The outer join, whatever the keys *)

Lemma filter_nil_Forall {A} (P : A → Prop) `{!∀ x, Decision (P x)} (l : list A) :
  filter P l = [] → Forall (λ x, ¬ P x) l.
Proof.
  intros Hnil. apply Forall_forall. intros x Hx HP.
  by eapply filter_nil_not_elem_of.
Qed.

(** The rows of an outer join: a left row with one of its partners. *)
Lemma elem_of_outer_join {L R} (on : L → R → bool) (right : list R) (left : list L) l o :
  (l, o) ∈ outer_join on right left ↔ l ∈ left ∧ partner on right l o.
Proof.
  unfold outer_join. rewrite list_elem_of_bind. split.
  - intros (y & Hjoined & Hy). unfold joined_with in Hjoined.
    destruct (filter _ right) as [|r matches] eqn:Hfilter.
    + apply list_elem_of_singleton in Hjoined as [= -> ->].
      split; [done|]. by apply (filter_nil_Forall (λ r : R, on _ r)).
    + apply list_elem_of_fmap in Hjoined as (r' & [= -> ->] & Hr').
      rewrite <- Hfilter in Hr'. apply list_elem_of_filter in Hr' as [Hon Hr'].
      by split.
  - intros [Hl Hpartner]. exists l. split; [|done]. unfold joined_with.
    destruct o as [r|]; simpl in Hpartner.
    + destruct Hpartner as [Hr Hon].
      assert (Hin : r ∈ filter (λ r, on l r) right) by by apply list_elem_of_filter.
      destruct (filter _ right) as [|r' matches]; [by apply elem_of_nil in Hin|].
      apply list_elem_of_fmap. by exists r.
    + rewrite filter_none by done. by apply list_elem_of_singleton.
Qed.

(** Every left row has a partner. *)
Lemma partner_exists {L R} (on : L → R → bool) (right : list R) (l : L) :
  ∃ o, partner on right l o.
Proof.
  destruct (filter (λ r, on l r) right) as [|r matches] eqn:Hfilter.
  - exists None. by apply (filter_nil_Forall (λ r : R, on l r)).
  - exists (Some r).
    assert (Hr : r ∈ filter (λ r, on l r) right) by (rewrite Hfilter; left).
    apply list_elem_of_filter in Hr as [Hon Hr]. by split.
Qed.

(** The rows of the weather query: a humidity row that passes the filters,
    with a temperature partner and a rainfall partner. *)
Lemma weather_query_elem forecast_date municipality_code municipality_name s h ot or :
  (h, ot, or) ∈ weather_query forecast_date municipality_code municipality_name s
  ↔ h ∈ filter (λ h, anchor_selected forecast_date municipality_code municipality_name h)
          (rh_daily_avg_region s)
    ∧ partner same_key (tmax_daily_tmax_region s) h ot
    ∧ partner same_key (rainfall_daily_weighted_average s) h or.
Proof.
  rewrite weather_query_selected, !elem_of_outer_join. simpl.
  destruct or; simpl; tauto.
Qed.

Lemma partner_joined_value (table : list Metric.t) (h : Metric.t) (o : option Metric.t) :
  partner same_key table h o → joined_value table h (o ≫= Metric.value).
Proof.
  destruct o as [m|]; simpl.
  - intros [Hm Hkey]. right. by exists m.
  - intros Hnone. by left.
Qed.

Section weather_rows.
Context {libm : MathModule}.

(** What the loop returns is built row by row from the query rows. *)
Lemma weather_loop_Ok results rows :
  weather_loop results = Ok rows → Forall2 built_from results rows.
Proof.
  revert rows. induction results as [|row results IH]; intros rows.
  { intros [= <-]. constructor. }
  rewrite weather_loop_cons. unfold mbind, result_bind.
  destruct (compute_heat_index _ _) as [v|] eqn:Hv; [|done].
  unfold WeatherData.init.
  destruct (Row.day_name row) as [d|] eqn:Hd; [|by destruct (Row.municipality_name row)].
  destruct (Row.municipality_name row) as [m|] eqn:Hm; [|done].
  destruct (weather_loop results) as [ws|]; [|done].
  intros [= <-]. constructor; [by split | by apply IH].
Qed.

(** The loop raises exactly when a query row lacks one of the two names. *)
Lemma weather_loop_Raise results :
  (∃ e, weather_loop results = Raise e)
  ↔ Exists (λ row, Row.day_name row = None ∨ Row.municipality_name row = None) results.
Proof.
  induction results as [|row results IH].
  { split; [by intros [e ?] | by intros ?%Exists_nil]. }
  rewrite Exists_cons, <- IH, weather_loop_cons. unfold mbind, result_bind.
  destruct (compute_heat_index_returns (Row.temperature_max row)
              (Row.relative_humidity row)) as [v ->].
  unfold WeatherData.init.
  destruct (Row.day_name row) as [d|], (Row.municipality_name row) as [m|];
    try (split; [intros _; left; tauto | intros _; by eexists]).
  destruct (weather_loop results) as [ws|e].
  - split; [by intros [e ?] | intros [[?|?]|[e ?]]; done].
  - split; [intros _; right; by eexists | intros _; by eexists].
Qed.

Lemma fetch_weather_data_Ok forecast_date municipality_code municipality_name s rows :
  (fetch_weather_data forecast_date municipality_code municipality_name s).2 = Ok rows →
  Forall2 built_from
    (columns <$> weather_query forecast_date municipality_code municipality_name s) rows.
Proof.
  rewrite fetch_weather_data_run. cbn [snd].
  destruct (weather_query _ _ _ s) as [|j joined]; [done|].
  rewrite fmap_cons. apply weather_loop_Ok.
Qed.
End weather_rows.

Section weather_further.
Context {libm : MathModule}.

(** Each response row is built from a row of the query. *)
Lemma fetch_weather_data_row forecast_date municipality_code municipality_name s rows w :
  (fetch_weather_data forecast_date municipality_code municipality_name s).2 = Ok rows →
  w ∈ rows →
  ∃ h ot or,
    (h, ot, or) ∈ weather_query forecast_date municipality_code municipality_name s
    ∧ built_from (columns (h, ot, or)) w.
Proof.
  intros Hbuilt%fetch_weather_data_Ok [i Hi]%list_elem_of_lookup_1.
  destruct (Forall2_lookup_r _ _ _ _ _ Hbuilt Hi) as (row & Hrow & Hw).
  apply list_lookup_fmap_Some in Hrow as ([[h ot] or] & -> & Hj).
  exists h, ot, or. split; [|done]. by eapply list_elem_of_lookup_2.
Qed.

(** Each row of the query is answered by a response row. *)
Lemma fetch_weather_data_answered
    forecast_date municipality_code municipality_name s rows j :
  (fetch_weather_data forecast_date municipality_code municipality_name s).2 = Ok rows →
  j ∈ weather_query forecast_date municipality_code municipality_name s →
  ∃ w, w ∈ rows ∧ built_from (columns j) w.
Proof.
  intros Hbuilt%fetch_weather_data_Ok [i Hi]%list_elem_of_lookup_1.
  assert (Hrow : (columns <$> weather_query forecast_date municipality_code
                    municipality_name s) !! i = Some (columns j))
    by (apply list_lookup_fmap_Some; by exists j).
  destruct (Forall2_lookup_l _ _ _ _ _ Hbuilt Hrow) as (w & Hw & Hbuilt_w).
  exists w. split; [|done]. by eapply list_elem_of_lookup_2.
Qed.

Lemma built_provenance s h ot or w :
  partner same_key (tmax_daily_tmax_region s) h ot →
  partner same_key (rainfall_daily_weighted_average s) h or →
  built_from (columns (h, ot, or)) w →
  provenance s h w.
Proof.
  intros Htmax Hrain [Hfd Hdn Hmn Hrh Ht Hr _]. simpl in *.
  split; try done.
  - rewrite Ht. by apply partner_joined_value.
  - rewrite Hr. by apply partner_joined_value.
Qed.

(** X8: every row the weather fetch returns equals the [forecast_date] and the
    [municipality_name] filters that were supplied non-empty. *)
Theorem fetch_weather_data_filters
    forecast_date municipality_code municipality_name s rows w :
  (fetch_weather_data forecast_date municipality_code municipality_name s).2 = Ok rows →
  w ∈ rows →
  (∀ d, forecast_date = Some d → d ≠ EmptyString → WeatherData.forecast_date w = d)
  ∧ (∀ m, municipality_name = Some m → m ≠ EmptyString →
       WeatherData.municipality_name w = m).
Proof.
  intros Hrun Hw.
  destruct (fetch_weather_data_row _ _ _ _ _ _ Hrun Hw)
    as (h & ot & or & Hj & [Hfd _ Hmn _ _ _ _]).
  apply weather_query_elem in Hj as (Hh & _ & _).
  apply list_elem_of_filter in Hh as [Hselected _].
  unfold anchor_selected in Hselected.
  apply andb_True in Hselected as [[Hdate _]%andb_True Hname].
  unfold columns, anchor in Hfd, Hmn. simpl in Hfd, Hmn. split.
  - intros d -> Hd. rewrite Hfd. simpl in Hdate.
    rewrite bool_decide_eq_false_2 in Hdate by done. simpl in Hdate.
    by apply bool_decide_unpack in Hdate.
  - intros m -> Hm. simpl in Hname.
    rewrite bool_decide_eq_false_2 in Hname by done. simpl in Hname.
    apply sql_eq_Some in Hname. rewrite Hmn in Hname. by simplify_eq.
Qed.

(** X9: whatever the keys of the tables, the left join keeps the anchor: every
    returned row comes from a humidity row that passes the filters, with the
    temperature and rainfall of rows of its key or absent when there is
    none, and every such humidity row is answered by a returned row. *)
Theorem fetch_weather_data_provenance
    forecast_date municipality_code municipality_name s rows :
  (fetch_weather_data forecast_date municipality_code municipality_name s).2 = Ok rows →
  Forall (λ w, ∃ h,
      h ∈ filter (λ h, anchor_selected forecast_date municipality_code municipality_name h)
            (rh_daily_avg_region s)
      ∧ provenance s h w) rows
  ∧ Forall (λ h, ∃ w, w ∈ rows ∧ provenance s h w)
      (filter (λ h, anchor_selected forecast_date municipality_code municipality_name h)
         (rh_daily_avg_region s)).
Proof.
  intros Hrun. split; apply Forall_forall.
  - intros w Hw.
    destruct (fetch_weather_data_row _ _ _ _ _ _ Hrun Hw)
      as (h & ot & or & Hj & Hbuilt).
    apply weather_query_elem in Hj as (Hh & Htmax & Hrain).
    exists h. split; [done|]. by eapply built_provenance.
  - intros h Hh.
    destruct (partner_exists same_key (tmax_daily_tmax_region s) h) as [ot Htmax].
    destruct (partner_exists same_key (rainfall_daily_weighted_average s) h)
      as [or Hrain].
    assert (Hj : (h, ot, or) ∈ weather_query forecast_date municipality_code
                                 municipality_name s)
      by by apply weather_query_elem.
    destruct (fetch_weather_data_answered _ _ _ _ _ _ Hrun Hj) as (w & Hw & Hbuilt).
    exists w. split; [done|]. by eapply built_provenance.
Qed.

(** X10: the weather fetch fails while building its response exactly when a
    humidity row that passes the filters lacks its day name or its
    municipality name; it raises nothing but that and NotFound. *)
Theorem fetch_weather_data_failure forecast_date municipality_code municipality_name s :
  ((∃ field,
      (fetch_weather_data forecast_date municipality_code municipality_name s).2
      = Raise (ValidationError field))
   ↔ Exists (λ h, Metric.day_name h = None ∨ Metric.municipality_name h = None)
       (filter (λ h, anchor_selected forecast_date municipality_code municipality_name h)
          (rh_daily_avg_region s)))
  ∧ ∀ e,
      (fetch_weather_data forecast_date municipality_code municipality_name s).2 = Raise e →
      e = NotFound "No data found for the given filters"
      ∨ ∃ field, e = ValidationError field.
Proof.
  rewrite fetch_weather_data_run. cbn [snd]. split.
  - rewrite Exists_exists. split.
    + intros [field Hraise].
      destruct (weather_query _ _ _ s) as [|j joined] eqn:Hquery; [done|].
      rewrite <- Hquery in Hraise.
      assert (Hloop : ∃ e, weather_loop (columns <$> weather_query forecast_date
                             municipality_code municipality_name s) = Raise e).
      { exists (ValidationError field). rewrite Hquery in Hraise |- *. exact Hraise. }
      apply weather_loop_Raise, Exists_exists in Hloop as (row & Hrow & Hnone).
      apply list_elem_of_fmap in Hrow as ([[h ot] or] & -> & Hj).
      apply weather_query_elem in Hj as (Hh & _ & _). by exists h.
    + intros (h & Hh & Hnone).
      destruct (partner_exists same_key (tmax_daily_tmax_region s) h) as [ot Htmax].
      destruct (partner_exists same_key (rainfall_daily_weighted_average s) h)
        as [or Hrain].
      assert (Hj : (h, ot, or) ∈ weather_query forecast_date municipality_code
                                   municipality_name s)
        by by apply weather_query_elem.
      assert (Hloop : ∃ e, weather_loop (columns <$> weather_query forecast_date
                             municipality_code municipality_name s) = Raise e).
      { apply weather_loop_Raise, Exists_exists. exists (columns (h, ot, or)).
        split; [by apply list_elem_of_fmap_2 | done]. }
      destruct Hloop as [e Hloop].
      destruct (weather_loop_raises _ _ Hloop) as [field ->].
      exists field.
      destruct (weather_query _ _ _ s) as [|j joined]; [by apply elem_of_nil in Hj|].
      exact Hloop.
  - intros e.
    destruct (weather_query _ _ _ s) as [|j joined]; [intros [= <-]; by left|].
    intros Hraise. right.
    by apply (weather_loop_raises (columns <$> j :: joined)).
Qed.

(** X11: in the rows of the weather fetch a heat index is present only beside a
    temperature and a humidity, and two rows, of any two requests, with the
    same temperature and a humidity each carry the same heat index. *)
Theorem fetch_weather_data_heat_index
    forecast_date municipality_code municipality_name s rows w
    forecast_date' municipality_code' municipality_name' s' rows' w' :
  (fetch_weather_data forecast_date municipality_code municipality_name s).2 = Ok rows →
  w ∈ rows →
  (fetch_weather_data forecast_date' municipality_code' municipality_name' s').2
    = Ok rows' →
  w' ∈ rows' →
  (is_Some (WeatherData.heat_index w) →
   is_Some (WeatherData.temperature_max w) ∧ is_Some (WeatherData.relative_humidity w))
  ∧ (WeatherData.temperature_max w = WeatherData.temperature_max w' →
     is_Some (WeatherData.relative_humidity w) →
     is_Some (WeatherData.relative_humidity w') →
     WeatherData.heat_index w = WeatherData.heat_index w').
Proof.
  intros Hrun Hw Hrun' Hw'.
  destruct (fetch_weather_data_row _ _ _ _ _ _ Hrun Hw)
    as (h & ot & or & _ & [_ _ _ Hrh Ht _ Hhi]).
  destruct (fetch_weather_data_row _ _ _ _ _ _ Hrun' Hw')
    as (h' & ot' & or' & _ & [_ _ _ Hrh' Ht' _ Hhi']).
  rewrite <- Ht, <- Hrh in Hhi. rewrite <- Ht', <- Hrh' in Hhi'.
  split.
  - intros [v Hv]. rewrite Hv in Hhi.
    destruct (WeatherData.temperature_max w), (WeatherData.relative_humidity w);
      try done.
  - intros Heq [rh Hrh_w] [rh' Hrh_w'].
    rewrite Hrh_w in Hhi. rewrite Hrh_w', <- Heq in Hhi'.
    assert (Hblind : compute_heat_index (WeatherData.temperature_max w) (Some rh)
                     = compute_heat_index (WeatherData.temperature_max w) (Some rh'))
      by by destruct (WeatherData.temperature_max w).
    rewrite Hblind, Hhi' in Hhi. by simplify_eq.
Qed.
End weather_further.

(** ** The further properties on the sample store *)

Lemma sample_third_page : valid_paging 3 2.
Proof. unfold valid_paging. repeat split; discriminate. Defined.

(** Three dengue reports, pages of two: page 3 starts at offset 4. *)
Lemma get_case_reports_not_found_iff_witness :
  valid_paging 3 2
  ∧ ((get_case_reports (Some "dengue"%string) None None 3 2 sample_store).2
       = Raise (NotFound "No case reports found")
     ↔ Z.of_nat (length (case_reports_query (Some "dengue"%string) None None sample_store))
       ≤ (3 - 1) * 2).
Proof.
  split; [exact sample_third_page|].
  exact (get_case_reports_not_found_iff (Some "dengue"%string) None None 3 2
           sample_store sample_third_page).
Defined.

(** The second page of the dengue reports holds the one report left. *)
Lemma get_case_reports_length_witness :
  valid_paging 2 2
  ∧ (get_case_reports (Some "dengue"%string) None None 2 2 sample_store).2 = Ok [dengue_4]
  ∧ Z.of_nat (length [dengue_4])
    = 2 `min`
      (Z.of_nat (length (case_reports_query (Some "dengue"%string) None None sample_store))
       - (2 - 1) * 2).
Proof.
  split; [exact sample_paging|]. split; [reflexivity|].
  exact (get_case_reports_length (Some "dengue"%string) None None 2 2 sample_store
           [dengue_4] sample_paging eq_refl).
Defined.

Lemma sample_page_size : 1 ≤ 2 ≤ 100.
Proof. split; discriminate. Defined.

Lemma dengue_4_stored : dengue_4 ∈ case_reports sample_store.
Proof. do 3 right. left. Defined.

(** The fourth report is a dengue report of week 12 and is listed. *)
Lemma get_case_reports_complete_witness :
  (1 ≤ 2 ≤ 100)
  ∧ dengue_4 ∈ case_reports sample_store
  ∧ ∃ page rows,
      1 ≤ page
      ∧ (get_case_reports (Some "dengue"%string) None (Some 12) page 2 sample_store).2
        = Ok rows
      ∧ dengue_4 ∈ rows.
Proof.
  split; [exact sample_page_size|]. split; [exact dengue_4_stored|].
  apply (get_case_reports_complete (Some "dengue"%string) None (Some 12) 2
           sample_store dengue_4 sample_page_size dengue_4_stored).
  - intros _. reflexivity.
  - intros [].
  - intros _. reflexivity.
Defined.

Lemma dengue_week_12 :
  (get_case_reports (Some "dengue"%string) None (Some 12) 1 10 sample_store).2
  = Ok [dengue_1; dengue_4].
Proof. reflexivity. Defined.

Lemma get_case_reports_sublist_witness :
  (get_case_reports (Some "dengue"%string) None (Some 12) 1 10 sample_store).2
    = Ok [dengue_1; dengue_4]
  ∧ [dengue_1; dengue_4] `sublist_of` case_reports sample_store
  ∧ (case_reports_pk sample_store → NoDup (CaseReport.id <$> [dengue_1; dengue_4])).
Proof.
  split; [exact dengue_week_12|].
  exact (get_case_reports_sublist (Some "dengue"%string) None (Some 12) 1 10
           sample_store [dengue_1; dengue_4] dengue_week_12).
Defined.

Lemma sample_first_page_of_two : valid_paging 1 2.
Proof. unfold valid_paging. repeat split; discriminate. Defined.

(** Pages 1 and 2 of the dengue reports. *)
Lemma get_case_reports_pages_disjoint_witness :
  valid_paging 1 2 ∧ valid_paging 2 2 ∧ 1 ≠ 2
  ∧ case_reports_pk sample_store
  ∧ dengue_2 ∈ [dengue_1; dengue_2] ∧ dengue_4 ∈ [dengue_4]
  ∧ CaseReport.id dengue_2 ≠ CaseReport.id dengue_4.
Proof.
  assert (Hneq : 1 ≠ 2) by discriminate.
  assert (Hr : dengue_2 ∈ [dengue_1; dengue_2]) by (right; left).
  assert (Hr' : dengue_4 ∈ [dengue_4]) by left.
  split_and!; [exact sample_first_page_of_two | exact sample_paging | exact Hneq
              | exact sample_store_case_reports_pk | exact Hr | exact Hr' |].
  exact (get_case_reports_pages_disjoint (Some "dengue"%string) None None 1 2 2
           sample_store [dengue_1; dengue_2] [dengue_4] dengue_2 dengue_4
           sample_first_page_of_two sample_paging Hneq sample_store_case_reports_pk
           eq_refl eq_refl Hr Hr').
Defined.

Lemma get_case_report_of_listed_witness :
  case_reports_pk sample_store
  ∧ dengue_4 ∈ [dengue_1; dengue_4]
  ∧ get_case_report (CaseReport.id dengue_4) sample_store = (sample_store, Ok dengue_4).
Proof.
  assert (Hr : dengue_4 ∈ [dengue_1; dengue_4]) by (right; left).
  split_and!; [exact sample_store_case_reports_pk | exact Hr |].
  exact (get_case_report_of_listed (Some "dengue"%string) None (Some 12) 1 10
           sample_store [dengue_1; dengue_4] dengue_4 sample_store_case_reports_pk
           dengue_week_12 Hr).
Defined.

Lemma baucau_fetched :
  (fetch_weather_data (libm := approx_math) (Some "2024-05-01"%string) None
     (Some "Baucau"%string) sample_store).2 = Ok [baucau_answer].
Proof. reflexivity. Defined.

Lemma baucau_listed : baucau_answer ∈ [baucau_answer].
Proof. left. Defined.

Lemma fetch_weather_data_filters_witness :
  (fetch_weather_data (libm := approx_math) (Some "2024-05-01"%string) None
     (Some "Baucau"%string) sample_store).2 = Ok [baucau_answer]
  ∧ WeatherData.forecast_date baucau_answer = "2024-05-01"%string
  ∧ WeatherData.municipality_name baucau_answer = "Baucau"%string.
Proof.
  split; [exact baucau_fetched|].
  destruct (fetch_weather_data_filters (libm := approx_math) (Some "2024-05-01"%string)
              None (Some "Baucau"%string) sample_store [baucau_answer] baucau_answer
              baucau_fetched baucau_listed) as [Hdate Hname].
  split.
  - apply Hdate; [reflexivity | discriminate].
  - apply Hname; [reflexivity | discriminate].
Defined.

Lemma sample_fetched :
  (fetch_weather_data (libm := approx_math) None None None sample_store).2
  = Ok sample_answers.
Proof. vm_compute. reflexivity. Defined.

Lemma dili_listed : dili_answer ∈ sample_answers.
Proof. left. Defined.

Lemma fetch_weather_data_provenance_witness :
  (fetch_weather_data (libm := approx_math) None None None sample_store).2
    = Ok sample_answers
  ∧ Forall (λ w, ∃ h,
        h ∈ filter (λ h, anchor_selected None None None h)
              (rh_daily_avg_region sample_store)
        ∧ provenance sample_store h w) sample_answers
  ∧ Forall (λ h, ∃ w, w ∈ sample_answers ∧ provenance sample_store h w)
      (filter (λ h, anchor_selected None None None h) (rh_daily_avg_region sample_store)).
Proof.
  split; [exact sample_fetched|].
  exact (fetch_weather_data_provenance (libm := approx_math) None None None
           sample_store sample_answers sample_fetched).
Defined.

(** Dili's row has a heat index, hence a temperature and a humidity. *)
Lemma fetch_weather_data_heat_index_witness :
  (fetch_weather_data (libm := approx_math) None None None sample_store).2
    = Ok sample_answers
  ∧ dili_answer ∈ sample_answers
  ∧ is_Some (WeatherData.heat_index dili_answer)
  ∧ is_Some (WeatherData.temperature_max dili_answer)
  ∧ is_Some (WeatherData.relative_humidity dili_answer).
Proof.
  split; [exact sample_fetched|]. split; [exact dili_listed|].
  assert (Hheat : is_Some (WeatherData.heat_index dili_answer)) by (by eexists).
  split; [exact Hheat|].
  destruct (fetch_weather_data_heat_index (libm := approx_math) None None None
              sample_store sample_answers dili_answer None None None sample_store
              sample_answers dili_answer sample_fetched dili_listed sample_fetched
              dili_listed) as [Hpresent _].
  exact (Hpresent Hheat).
Defined.
